(** * NeuroOS asset generators

    A shallow embedding of [scripts/generate_icon.py] and
    [scripts/generate_installer_assets.py].  Both scripts are straight-line
    sequences of Pillow calls on mutable image objects followed by file
    writes and one [print].  Images live in a heap and are reached through
    references (the [ImageDraw] handle aliases the image it was built
    from); the file system and standard output form the world that
    survives a run. *)

From Stdlib Require Import ZArith String Ascii List Lia.
From stdpp Require Import base option list gmap strings.

Open Scope string_scope.
Open Scope Z_scope.
Open Scope list_scope.

(** ** Pixels and images *)

Inductive Mode := RGB | RGBA.

(** A colour is the tuple handed to Pillow: three or four integers. *)
Inductive Color :=
| rgb (r g b : Z)
| rgba (r g b a : Z).

#[global] Instance Mode_eq_dec : EqDecision Mode.
Proof. solve_decision. Defined.

#[global] Instance Color_eq_dec : EqDecision Color.
Proof. solve_decision. Defined.

(** An image is a fixed-size buffer: [im_rows] holds the rows top to
    bottom, each row the pixels left to right. *)
Record Image := mkImage {
  im_mode : Mode;
  im_size : Z * Z;
  im_rows : list (list Color)
}.

Definition clip8 (v : Z) : Z := Z.max 0 (Z.min 255 v).

(** The ink Pillow stores for a colour tuple in an image of a given mode:
    bands are clipped to a byte, a missing alpha is opaque, an alpha has no
    place in an RGB image. *)
Definition getink (m : Mode) (c : Color) : Color :=
  match m, c with
  | RGB, rgb r g b => rgb (clip8 r) (clip8 g) (clip8 b)
  | RGB, rgba r g b _ => rgb (clip8 r) (clip8 g) (clip8 b)
  | RGBA, rgb r g b => rgba (clip8 r) (clip8 g) (clip8 b) 255
  | RGBA, rgba r g b a => rgba (clip8 r) (clip8 g) (clip8 b) (clip8 a)
  end.

(** [Image.new(mode, size, color)], the buffer it allocates. *)
Definition new_image (m : Mode) (size : Z * Z) (color : Color) : Image :=
  {| im_mode := m;
     im_size := size;
     im_rows := replicate (Z.to_nat size.2)
                          (replicate (Z.to_nat size.1) (getink m color)) |}.

(** Every fill primitive of [ImageDraw] stores one ink in the pixels it
    covers and leaves the others alone; pixels outside the buffer are
    clipped away.  [paint] is that store, for the set of covered pixels
    given as a mask over (x, y). *)
Definition paint (mask : Z → Z → bool) (fill : Color) (im : Image) : Image :=
  {| im_mode := im_mode im;
     im_size := im_size im;
     im_rows :=
       imap (λ y row,
               imap (λ x p, if mask (Z.of_nat x) (Z.of_nat y)
                            then getink (im_mode im) fill else p) row)
            (im_rows im) |}.

(** Reading a pixel; [None] outside the buffer. *)
Definition pixel_at (im : Image) (x y : Z) : option Color :=
  if (0 <=? x) && (0 <=? y)
  then row ← im_rows im !! Z.to_nat y; row !! Z.to_nat x
  else None.

(** The buffer has the shape its size announces. *)
Definition well_shaped (im : Image) : Prop :=
  length (im_rows im) = Z.to_nat (im_size im).2 ∧
  Forall (λ row, length row = Z.to_nat (im_size im).1) (im_rows im).

(** [draw.rectangle([x0, y0, x1, y1], fill=...)]: both corners belong to the
    filled box. *)
Definition rectangle_mask (xy : Z * Z * Z * Z) (x y : Z) : bool :=
  let '(x0, y0, x1, y1) := xy in
  (x0 <=? x) && (x <=? x1) && (y0 <=? y) && (y <=? y1).

(** The two primitives whose coverage is decided inside Pillow's rasteriser
    (edge rules of the polygon scan conversion, the corner arcs of the
    rounded rectangle).  The development is stated for every such
    rasteriser. *)
Class Rasteriser := {
  polygon_mask : list (Z * Z) → Z → Z → bool;
  rounded_rectangle_mask : Z * Z * Z * Z → Z → Z → Z → bool
}.

(** ** Files *)

Inductive Format := ICO | PNG | BMP.

#[global] Instance Format_eq_dec : EqDecision Format.
Proof. solve_decision. Defined.

(** What a written file holds.  An icon container holds one image for each
    listed size, each scaled down by the encoder from [ico_source]; the
    resampled pixel values themselves are left to the encoder. *)
Inductive File :=
| PngFile (im : Image)
| BmpFile (im : Image)
| IcoFile (ico_source : Image) (ico_sizes : list (Z * Z)).

(** *** The format is chosen from the file name's extension *)

Definition lower_ascii (c : ascii) : ascii :=
  let n := nat_of_ascii c in
  if ((65 <=? n) && (n <=? 90))%nat then ascii_of_nat (n + 32) else c.

Fixpoint lower (s : string) : string :=
  match s with
  | EmptyString => EmptyString
  | String c r => String (lower_ascii c) (lower r)
  end.

Fixpoint has_char (c : ascii) (s : string) : bool :=
  match s with
  | EmptyString => false
  | String d r => if Ascii.eqb c d then true else has_char c r
  end.

(** The part of a path after its last slash. *)
Fixpoint basename (s : string) : string :=
  match s with
  | EmptyString => EmptyString
  | String c r => if has_char "/"%char r then basename r else
                  if Ascii.eqb c "/"%char then r else s
  end.

(** The text from the last dot on, or nothing when there is no dot. *)
Fixpoint from_last_dot (s : string) : string :=
  match s with
  | EmptyString => EmptyString
  | String c r => if has_char "."%char r then from_last_dot r else
                  if Ascii.eqb c "."%char then s else EmptyString
  end.

Fixpoint drop_leading_dots (s : string) : string :=
  match s with
  | String c r => if Ascii.eqb c "."%char then drop_leading_dots r else s
  | EmptyString => EmptyString
  end.

(** [os.path.splitext(path)[1].lower()]. *)
Definition extension (path : string) : string :=
  lower (from_last_dot (drop_leading_dots (basename path))).

(** The registered extensions of the three formats the scripts write. *)
Definition format_of_path (path : string) : option Format :=
  let ext := extension path in
  if String.eqb ext ".ico" then Some ICO
  else if String.eqb ext ".png" then Some PNG
  else if String.eqb ext ".bmp" then Some BMP
  else None.

(** *** The sizes an icon container receives

    Pillow's ICO writer walks [sorted(set(sizes))] and skips a size that
    exceeds the image's own size, or 256, in either dimension: the format's
    directory stores each dimension in one byte.  (Releases that keep the
    sizes in the order given apply the same test.)  This is the library's
    behaviour, not a statement of the scripts. *)

Definition size_ltb (a b : Z * Z) : bool :=
  (a.1 <? b.1) || ((a.1 =? b.1) && (a.2 <? b.2)).

Fixpoint insert_size (s : Z * Z) (l : list (Z * Z)) : list (Z * Z) :=
  match l with
  | [] => [s]
  | t :: r => if size_ltb s t then s :: l
              else if size_ltb t s then t :: insert_size s r
              else l
  end.

Definition sorted_set (l : list (Z * Z)) : list (Z * Z) :=
  foldr insert_size [] l.

Definition ico_skipped (im_size s : Z * Z) : bool :=
  (s.1 >? im_size.1) || (s.2 >? im_size.2) || (s.1 >? 256) || (s.2 >? 256).

Definition ico_default_sizes : list (Z * Z) :=
  [(16, 16); (24, 24); (32, 32); (48, 48); (64, 64); (128, 128); (256, 256)].

Definition ico_frames (im : Image) (sizes : option (list (Z * Z)))
  : list (Z * Z) :=
  filter (λ s, ico_skipped (im_size im) s = false)
         (sorted_set (default ico_default_sizes sizes)).

Definition encode (fmt : Format) (im : Image) (sizes : option (list (Z * Z)))
  : File :=
  match fmt with
  | ICO => IcoFile im (ico_frames im sizes)
  | PNG => PngFile im
  | BMP => BmpFile im
  end.

(** ** The process and its world *)

(** What outlives a run: the files, the lines printed, and which paths the
    operating system lets the process open for writing (the directory is
    there, the permissions allow it). *)
Record World := mkWorld {
  fs : gmap string File;
  stdout : list string;
  can_write : string → bool
}.

Definition ref := nat.

(** The library calls a run has completed, in order. *)
Inductive Call :=
| CallNew (m : Mode) (size : Z * Z) (color : Color)
| CallRoundedRectangle (m : Mode) (size : Z * Z)
                       (xy : Z * Z * Z * Z) (radius : Z) (fill : Color)
| CallRectangle (m : Mode) (size : Z * Z) (xy : Z * Z * Z * Z) (fill : Color)
| CallPolygon (m : Mode) (size : Z * Z) (xy : list (Z * Z)) (fill : Color)
| CallSave (path : string) (sizes : option (list (Z * Z)))
| CallPrint (line : string).

Inductive Exn :=
| OSError (path : string)
| ValueError (what : string)
| ReferenceError (r : ref).

Record Proc := mkProc {
  heap : gmap ref Image;
  world : World;
  calls : list Call
}.

Definition M (A : Type) : Type := Proc → (Exn + A) * Proc.

#[global] Instance M_ret : MRet M := λ A a p, (inr a, p).

#[global] Instance M_bind : MBind M := λ A B k c p,
  match c p with
  | (inr a, p') => k a p'
  | (inl e, p') => (inl e, p')
  end.

Definition raise {A} (e : Exn) : M A := λ p, (inl e, p).

Definition logged (c : Call) (p : Proc) : Proc :=
  {| heap := heap p; world := world p; calls := calls p ++ [c] |}.

Definition stored (r : ref) (im : Image) (p : Proc) : Proc :=
  {| heap := <[r := im]> (heap p); world := world p; calls := calls p |}.

Definition write_file (path : string) (f : File) (w : World) : World :=
  {| fs := <[path := f]> (fs w); stdout := stdout w;
     can_write := can_write w |}.

Definition emit (line : string) (w : World) : World :=
  {| fs := fs w; stdout := stdout w ++ [line]; can_write := can_write w |}.

Definition in_world (f : World → World) (p : Proc) : Proc :=
  {| heap := heap p; world := f (world p); calls := calls p |}.

(** [Image.new]: a fresh object on the heap. *)
Definition Image_new (m : Mode) (size : Z * Z) (color : Color) : M ref :=
  λ p, let r := fresh (dom (heap p)) in
       (inr r, logged (CallNew m size color)
                      (stored r (new_image m size color) p)).

(** The drawing handle keeps a reference to the image, not a copy. *)
Record ImageDraw := mkDraw { draw_im : ref }.

Definition ImageDraw_Draw (im : ref) : M ImageDraw := mret (mkDraw im).

(** A fill primitive: mutate the image the handle points to. *)
Definition draw_fill (d : ImageDraw) (mask : Z → Z → bool) (fill : Color)
    (call : Mode → Z * Z → Call) : M unit :=
  λ p, match heap p !! draw_im d with
       | Some im =>
           (inr (), logged (call (im_mode im) (im_size im))
                           (stored (draw_im d) (paint mask fill im) p))
       | None => (inl (ReferenceError (draw_im d)), p)
       end.

Definition rounded_rectangle `{Rasteriser} (d : ImageDraw)
    (xy : Z * Z * Z * Z) (radius : Z) (fill : Color) : M unit :=
  draw_fill d (rounded_rectangle_mask xy radius) fill
            (λ m s, CallRoundedRectangle m s xy radius fill).

Definition rectangle (d : ImageDraw) (xy : Z * Z * Z * Z) (fill : Color)
  : M unit :=
  draw_fill d (rectangle_mask xy) fill (λ m s, CallRectangle m s xy fill).

Definition polygon `{Rasteriser} (d : ImageDraw) (xy : list (Z * Z))
    (fill : Color) : M unit :=
  draw_fill d (polygon_mask xy) fill (λ m s, CallPolygon m s xy fill).

(** [image.save(path, sizes=...)]: the format comes from the extension,
    then the file is opened, then the current content of the image is
    encoded into it.  An existing file is replaced. *)
Definition save (im : ref) (path : string) (sizes : option (list (Z * Z)))
  : M unit :=
  λ p, match heap p !! im with
       | None => (inl (ReferenceError im), p)
       | Some img =>
           match format_of_path path with
           | None => (inl (ValueError "unknown file extension"), p)
           | Some fmt =>
               if can_write (world p) path
               then (inr (), logged (CallSave path sizes)
                       (in_world (write_file path (encode fmt img sizes)) p))
               else (inl (OSError path), p)
           end
       end.

Definition print (line : string) : M unit :=
  λ p, (inr (), logged (CallPrint line) (in_world (emit line) p)).

(** A script runs in a fresh process: empty heap, nothing called yet. *)
Definition run {A} (prog : M A) (w : World) : (Exn + A) * World * list Call :=
  let '(r, p) := prog {| heap := ∅; world := w; calls := [] |} in
  (r, world p, calls p).

Definition outcome {A} (x : (Exn + A) * World * list Call) : Exn + A := x.1.1.
Definition world_after {A} (x : (Exn + A) * World * list Call) : World := x.1.2.
Definition calls_of {A} (x : (Exn + A) * World * list Call) : list Call := x.2.

(** ** scripts/generate_icon.py *)

Module generate_icon.

Definition size : Z := 512.

Definition path_coords : list (Z * Z) :=
  [ (160, 352); (160, 160); (208, 160); (304, 304);
    (304, 160); (352, 160); (352, 352); (304, 352);
    (208, 208); (208, 352); (160, 352) ].

Definition icon_sizes : list (Z * Z) :=
  [(16, 16); (32, 32); (48, 48); (64, 64); (128, 128); (256, 256);
   (512, 512)].

Definition ico_path := "e:/chatit.cloud/2030/NeuroOS/build/icon.ico".
Definition png_path := "e:/chatit.cloud/2030/NeuroOS/build/icon.png".
Definition message := "Icon generated successfully: icon.ico and icon.png".

Definition create_neuro_icon `{Rasteriser} : M unit :=
  (image ← Image_new RGBA (size, size) (rgba 255 255 255 255);
   draw ← ImageDraw_Draw image;
   rounded_rectangle draw (0, 0, size, size) 128 (rgba 255 255 255 255);;
   polygon draw path_coords (rgba 24 24 27 255);;
   save image ico_path (Some icon_sizes);;
   save image png_path None;;
   print message).

End generate_icon.

(** ** scripts/generate_installer_assets.py *)

Module generate_installer_assets.

Definition sidebar_w : Z := 164.
Definition sidebar_h : Z := 314.
Definition header_w : Z := 150.
Definition header_h : Z := 57.

Definition path_coords : list (Z * Z) :=
  [(60, 150); (60, 100); (80, 100); (104, 130); (104, 100); (114, 100);
   (114, 150); (104, 150); (80, 120); (80, 150)].

Definition n_small : list (Z * Z) :=
  [(120, 40); (120, 15); (125, 15); (135, 30); (135, 15); (140, 15);
   (140, 40); (135, 40); (125, 25); (125, 40)].

Definition sidebar_path :=
  "e:/chatit.cloud/2030/NeuroOS/build/installerSidebar.bmp".
Definition header_path :=
  "e:/chatit.cloud/2030/NeuroOS/build/installerHeader.bmp".
Definition message :=
  "Installer assets generated: installerSidebar.bmp and installerHeader.bmp".

Definition create_installer_assets `{Rasteriser} : M unit :=
  (sidebar ← Image_new RGB (sidebar_w, sidebar_h) (rgb 255 255 255);
   draw ← ImageDraw_Draw sidebar;
   rectangle draw (0, sidebar_h - 5, sidebar_w, sidebar_h) (rgb 24 24 27);;
   polygon draw path_coords (rgb 24 24 27);;
   save sidebar sidebar_path None;;
   header ← Image_new RGB (header_w, header_h) (rgb 255 255 255);
   draw ← ImageDraw_Draw header;
   polygon draw n_small (rgb 24 24 27);;
   save header header_path None;;
   print message).

End generate_installer_assets.

(** ** Program points and observations *)

Definition white (m : Mode) : Color :=
  match m with RGB => rgb 255 255 255 | RGBA => rgba 255 255 255 255 end.

Definition near_black (m : Mode) : Color :=
  match m with RGB => rgb 24 24 27 | RGBA => rgba 24 24 27 255 end.

Section program_points.

Context `{Rasteriser}.

(** The icon's canvas after [Image.new], after the rounded rectangle and
    after the glyph. *)
Definition icon_blank : Image :=
  new_image RGBA (generate_icon.size, generate_icon.size)
            (rgba 255 255 255 255).

Definition icon_background : Image :=
  paint (rounded_rectangle_mask
           (0, 0, generate_icon.size, generate_icon.size) 128)
        (rgba 255 255 255 255) icon_blank.

Definition icon_image : Image :=
  paint (polygon_mask generate_icon.path_coords) (rgba 24 24 27 255)
        icon_background.

(** The sidebar's canvas after [Image.new], after the border and after
    the glyph; the header's after its glyph. *)
Definition sidebar_blank : Image :=
  new_image RGB (generate_installer_assets.sidebar_w,
                 generate_installer_assets.sidebar_h) (rgb 255 255 255).

Definition sidebar_border_box : Z * Z * Z * Z :=
  (0, generate_installer_assets.sidebar_h - 5,
   generate_installer_assets.sidebar_w, generate_installer_assets.sidebar_h).

Definition sidebar_border : Image :=
  paint (rectangle_mask sidebar_border_box) (rgb 24 24 27) sidebar_blank.

Definition sidebar_image : Image :=
  paint (polygon_mask generate_installer_assets.path_coords)
        (rgb 24 24 27) sidebar_border.

Definition header_image : Image :=
  paint (polygon_mask generate_installer_assets.n_small) (rgb 24 24 27)
        (new_image RGB (generate_installer_assets.header_w,
                        generate_installer_assets.header_h)
                   (rgb 255 255 255)).

(** The icon procedure with the rounded-rectangle statement taken out. *)
Definition create_neuro_icon_without_background : M unit :=
  image ← Image_new RGBA (generate_icon.size, generate_icon.size)
                    (rgba 255 255 255 255);
  draw ← ImageDraw_Draw image;
  polygon draw generate_icon.path_coords (rgba 24 24 27 255);;
  save image generate_icon.ico_path (Some generate_icon.icon_sizes);;
  save image generate_icon.png_path None;;
  print generate_icon.message.

End program_points.

(** The calls each script makes before its first file write. *)
Definition icon_draws : list Call :=
  [ CallNew RGBA (512, 512) (rgba 255 255 255 255);
    CallRoundedRectangle RGBA (512, 512) (0, 0, 512, 512) 128
                         (rgba 255 255 255 255);
    CallPolygon RGBA (512, 512) generate_icon.path_coords
                (rgba 24 24 27 255) ].

Definition sidebar_draws : list Call :=
  [ CallNew RGB (164, 314) (rgb 255 255 255);
    CallRectangle RGB (164, 314) (0, 309, 164, 314) (rgb 24 24 27);
    CallPolygon RGB (164, 314) generate_installer_assets.path_coords
                (rgb 24 24 27) ].

Definition header_draws : list Call :=
  [ CallNew RGB (150, 57) (rgb 255 255 255);
    CallPolygon RGB (150, 57) generate_installer_assets.n_small
                (rgb 24 24 27) ].

(** The polygons a run has drawn, each with the size of its canvas. *)
Definition polygon_of (c : Call) : option (Z * Z * list (Z * Z)) :=
  match c with
  | CallPolygon _ size xy _ => Some (size, xy)
  | _ => None
  end.

Definition polygons_drawn (cs : list Call) : list (Z * Z * list (Z * Z)) :=
  omap polygon_of cs.

(** The effects a run has had on the outside, in order. *)
Inductive Effect :=
| Wrote (path : string)
| Printed (line : string).

Definition effect_of (c : Call) : option Effect :=
  match c with
  | CallSave path _ => Some (Wrote path)
  | CallPrint line => Some (Printed line)
  | _ => None
  end.

Definition effects (cs : list Call) : list Effect := omap effect_of cs.

Definition written_path (c : Call) : option string :=
  match c with
  | CallSave path _ => Some path
  | _ => None
  end.

Definition written_paths (cs : list Call) : list string :=
  omap written_path cs.

(** Colour discipline of one call: a canvas starts white, a glyph is
    near-black, any other fill is one of the two; alpha, where the mode has
    one, is 255. *)
Definition colours_ok (c : Call) : Prop :=
  match c with
  | CallNew m _ color => color = white m
  | CallPolygon m _ _ fill => fill = near_black m
  | CallRoundedRectangle m _ _ _ fill => fill = white m ∨ fill = near_black m
  | CallRectangle m _ _ fill => fill = white m ∨ fill = near_black m
  | CallSave _ _ => True
  | CallPrint _ => True
  end.

Definition inside (size : Z * Z) (v : Z * Z) : Prop :=
  0 ≤ v.1 < size.1 ∧ 0 ≤ v.2 < size.2.

Definition vertices_inside (p : Z * Z * list (Z * Z)) : Prop :=
  Forall (inside p.1) p.2.

(** *** A rasteriser to run the scripts on

    Even-odd rule for polygons and an exact circle test for the rounded
    corners.  Pillow's own rasteriser may differ from it on boundary
    pixels; nothing below depends on the choice. *)

Fixpoint crossings (x y : Z) (first prev : Z * Z) (rest : list (Z * Z))
  : bool :=
  let edge (a b : Z * Z) : bool :=
    let '(xa, ya) := a in
    let '(xb, yb) := b in
    if (ya <=? y) && (y <? yb)
    then (x - xa) * (yb - ya) <? (xb - xa) * (y - ya)
    else if (yb <=? y) && (y <? ya)
    then (xb - xa) * (y - ya) <? (x - xa) * (yb - ya)
    else false in
  match rest with
  | [] => edge prev first
  | v :: rest' => xorb (edge prev v) (crossings x y first v rest')
  end.

Definition even_odd (xy : list (Z * Z)) (x y : Z) : bool :=
  match xy with
  | [] => false
  | v :: rest => crossings x y v v rest
  end.

Definition rounded_box (xy : Z * Z * Z * Z) (radius : Z) (x y : Z) : bool :=
  let '(x0, y0, x1, y1) := xy in
  let dx := Z.max 0 (Z.max (x0 + radius - x) (x - (x1 - radius))) in
  let dy := Z.max 0 (Z.max (y0 + radius - y) (y - (y1 - radius))) in
  rectangle_mask xy x y && (dx * dx + dy * dy <=? radius * radius).

Definition plain_rasteriser : Rasteriser :=
  {| polygon_mask := even_odd; rounded_rectangle_mask := rounded_box |}.

(** A world where nothing has been written yet and every path can be. *)
Definition blank_world : World :=
  {| fs := ∅; stdout := []; can_write := λ _, true |}.

(** A world without the build directory: no path can be opened. *)
Definition barren_world : World :=
  {| fs := ∅; stdout := []; can_write := λ _, false |}.

(** The four files the two scripts write. *)
Definition outputs : list string :=
  [ generate_icon.ico_path; generate_icon.png_path;
    generate_installer_assets.sidebar_path;
    generate_installer_assets.header_path ].

Definition writable (w : World) (paths : list string) : Prop :=
  Forall (λ p, can_write w p = true) paths.

(** The rows of a canvas in which a mask covers at least one pixel. *)
Definition rows_covered (mask : Z → Z → bool) (size : Z * Z) : list Z :=
  filter (λ y, existsb (λ x, mask x y) (seqZ 0 size.1) = true)
         (seqZ 0 size.2).


(** The heap a script's process holds when the script ends. *)
Definition final_heap {A} (prog : M A) (w : World) : gmap ref Image :=
  heap (prog {| heap := ∅; world := w; calls := [] |}).2.

(** A world where one path can be written and no other. *)
Definition only_writable (path : string) : World :=
  {| fs := ∅; stdout := []; can_write := λ p, String.eqb p path |}.

(** The two inks of the assets, by what covers the pixel. *)
Definition two_tone (m : Mode) (covered : bool) : Color :=
  if covered then near_black m else white m.

(** ** Facts about buffers *)

Section buffers.

Implicit Types (im : Image) (mask : Z → Z → bool) (c : Color).

Lemma imap_fixed {A} (f : nat → A → A) (l : list A) :
  (∀ i a, l !! i = Some a → f i a = a) → imap f l = l.
Proof.
  intros Hf. apply list_eq. intros i. rewrite list_lookup_imap.
  destruct (l !! i) as [a|] eqn:E; simpl; [|done].
  by rewrite (Hf i a E).
Qed.

Lemma pixel_at_new_image m w h c x y :
  0 ≤ x < w → 0 ≤ y < h →
  pixel_at (new_image m (w, h) c) x y = Some (getink m c).
Proof.
  intros Hx Hy. unfold pixel_at, new_image. simpl.
  replace (0 <=? x) with true by (symmetry; apply Z.leb_le; lia).
  replace (0 <=? y) with true by (symmetry; apply Z.leb_le; lia).
  simpl. rewrite lookup_replicate_2 by lia. simpl.
  apply lookup_replicate_2. lia.
Qed.

Lemma pixel_at_new_image_outside m w h c x y :
  ¬ (0 ≤ x < w ∧ 0 ≤ y < h) → pixel_at (new_image m (w, h) c) x y = None.
Proof.
  intros Hout. unfold pixel_at, new_image. simpl.
  destruct (0 <=? x) eqn:Ex; [|done].
  destruct (0 <=? y) eqn:Ey; [|done].
  apply Z.leb_le in Ex, Ey. simpl.
  destruct (replicate (Z.to_nat h) _ !! Z.to_nat y) as [row|] eqn:Er;
    [|done].
  apply lookup_replicate in Er as [-> Hlt]. simpl.
  apply lookup_replicate_None. lia.
Qed.

Lemma pixel_at_paint mask c im x y :
  pixel_at (paint mask c im) x y =
  (λ p, if mask x y then getink (im_mode im) c else p) <$> pixel_at im x y.
Proof.
  unfold pixel_at, paint. simpl.
  destruct (0 <=? x) eqn:Ex; [|done].
  destruct (0 <=? y) eqn:Ey; [|done].
  apply Z.leb_le in Ex, Ey. simpl.
  rewrite list_lookup_imap.
  destruct (im_rows im !! Z.to_nat y) as [row|]; simpl; [|done].
  rewrite list_lookup_imap, !Z2Nat.id by done. done.
Qed.

Lemma paint_mode mask c im : im_mode (paint mask c im) = im_mode im.
Proof. done. Qed.

Lemma paint_size mask c im : im_size (paint mask c im) = im_size im.
Proof. done. Qed.

Lemma new_image_well_shaped m size c : well_shaped (new_image m size c).
Proof.
  split; simpl.
  - apply length_replicate.
  - apply Forall_replicate, length_replicate.
Qed.

Lemma paint_well_shaped mask c im :
  well_shaped im → well_shaped (paint mask c im).
Proof.
  intros [Hh Hw]. split; simpl.
  - by rewrite length_imap.
  - apply Forall_lookup. intros y row. rewrite list_lookup_imap.
    destruct (im_rows im !! y) as [row0|] eqn:E; simpl; [|done].
    intros [= <-]. rewrite length_imap.
    by apply (Forall_lookup_1 _ _ _ _ Hw E).
Qed.

(** Painting with the ink every pixel already has leaves the buffer as it
    is, whatever is covered. *)
Lemma paint_uniform mask c m size :
  paint mask c (new_image m size c) = new_image m size c.
Proof.
  unfold paint, new_image. simpl. f_equal.
  apply imap_fixed. intros y row [-> _]%lookup_replicate.
  apply imap_fixed. intros x p [-> _]%lookup_replicate.
  by destruct (mask _ _).
Qed.

End buffers.

#[global] Arguments new_image : simpl never.
#[global] Arguments paint : simpl never.
#[global] Arguments format_of_path : simpl never.
#[global] Arguments ico_frames : simpl never.

(** ** Small runs of the primitives *)

Example extension_of_ico :
  extension generate_icon.ico_path = ".ico".
Proof. reflexivity. Qed.

Example extension_upper_case : format_of_path "a.b/Logo.PNG" = Some PNG.
Proof. reflexivity. Qed.

Example extension_missing : format_of_path "build.d/icon" = None.
Proof. reflexivity. Qed.

Example sorted_set_example :
  sorted_set [(32, 32); (16, 16); (32, 32); (16, 48)] =
  [(16, 16); (16, 48); (32, 32)].
Proof. reflexivity. Qed.

Example rectangle_on_small_canvas :
  im_rows (paint (rectangle_mask (0, 1, 3, 2)) (rgb 24 24 27)
                 (new_image RGB (3, 2) (rgb 255 255 255))) =
  [ [rgb 255 255 255; rgb 255 255 255; rgb 255 255 255];
    [rgb 24 24 27; rgb 24 24 27; rgb 24 24 27] ].
Proof. reflexivity. Qed.

Example triangle_on_small_canvas :
  im_rows (paint (even_odd [(0, 0); (3, 0); (0, 3)]) (rgb 24 24 27)
                 (new_image RGB (3, 3) (rgb 255 255 255))) =
  [ [rgb 24 24 27; rgb 24 24 27; rgb 24 24 27];
    [rgb 24 24 27; rgb 24 24 27; rgb 255 255 255];
    [rgb 24 24 27; rgb 255 255 255; rgb 255 255 255] ].
Proof. reflexivity. Qed.

(** ** Running the scripts *)

Lemma format_ico : format_of_path generate_icon.ico_path = Some ICO.
Proof. reflexivity. Qed.

Lemma format_png : format_of_path generate_icon.png_path = Some PNG.
Proof. reflexivity. Qed.

Lemma format_sidebar :
  format_of_path generate_installer_assets.sidebar_path = Some BMP.
Proof. reflexivity. Qed.

Lemma format_header :
  format_of_path generate_installer_assets.header_path = Some BMP.
Proof. reflexivity. Qed.

(** One statement of a script: reduce the state record, then resolve the
    heap lookup of the object just stored and the format of the path. *)
Ltac script_step :=
  cbn [heap world calls logged stored in_world draw_im write_file emit
       can_write fs stdout];
  rewrite ?lookup_insert_eq;
  rewrite ?format_ico, ?format_png, ?format_sidebar, ?format_header.

Ltac script_start :=
  unfold run;
  unfold mbind, M_bind, Image_new, ImageDraw_Draw, mret, M_ret,
    rounded_rectangle, rectangle, polygon, draw_fill, save, print;
  do 6 script_step.

Section runs.

Context `{Rasteriser}.

Import generate_icon.

(** The three ways a run of the icon script can end. *)
Lemma run_create_neuro_icon (w : World) :
  run create_neuro_icon w =
  if can_write w ico_path then
    if can_write w png_path then
      (inr (),
       emit message
         (write_file png_path (PngFile icon_image)
            (write_file ico_path
               (IcoFile icon_image (ico_frames icon_image (Some icon_sizes)))
               w)),
       icon_draws ++ [CallSave ico_path (Some icon_sizes);
                      CallSave png_path None; CallPrint message])
    else
      (inl (OSError png_path),
       write_file ico_path
         (IcoFile icon_image (ico_frames icon_image (Some icon_sizes))) w,
       icon_draws ++ [CallSave ico_path (Some icon_sizes)])
  else (inl (OSError ico_path), w, icon_draws).
Proof.
  unfold create_neuro_icon. script_start.
  destruct (can_write w ico_path); [|reflexivity].
  do 2 script_step.
  destruct (can_write w png_path); reflexivity.
Qed.

Lemma run_create_neuro_icon_without_background (w : World) :
  run create_neuro_icon_without_background w =
  let image := paint (polygon_mask path_coords) (rgba 24 24 27 255)
                     icon_blank in
  if can_write w ico_path then
    if can_write w png_path then
      (inr (),
       emit message
         (write_file png_path (PngFile image)
            (write_file ico_path
               (IcoFile image (ico_frames image (Some icon_sizes))) w)),
       [CallNew RGBA (512, 512) (rgba 255 255 255 255);
        CallPolygon RGBA (512, 512) path_coords (rgba 24 24 27 255);
        CallSave ico_path (Some icon_sizes);
        CallSave png_path None; CallPrint message])
    else
      (inl (OSError png_path),
       write_file ico_path
         (IcoFile image (ico_frames image (Some icon_sizes))) w,
       [CallNew RGBA (512, 512) (rgba 255 255 255 255);
        CallPolygon RGBA (512, 512) path_coords (rgba 24 24 27 255);
        CallSave ico_path (Some icon_sizes)])
  else (inl (OSError ico_path), w,
        [CallNew RGBA (512, 512) (rgba 255 255 255 255);
         CallPolygon RGBA (512, 512) path_coords (rgba 24 24 27 255)]).
Proof.
  unfold create_neuro_icon_without_background. script_start.
  destruct (can_write w ico_path); [|reflexivity].
  do 2 script_step.
  destruct (can_write w png_path); reflexivity.
Qed.

Import generate_installer_assets.

(** The three ways a run of the installer script can end. *)
Lemma run_create_installer_assets (w : World) :
  run create_installer_assets w =
  if can_write w sidebar_path then
    if can_write w header_path then
      (inr (),
       emit generate_installer_assets.message
         (write_file header_path (BmpFile header_image)
            (write_file sidebar_path (BmpFile sidebar_image) w)),
       sidebar_draws ++ [CallSave sidebar_path None] ++ header_draws ++
       [CallSave header_path None;
        CallPrint generate_installer_assets.message])
    else
      (inl (OSError header_path),
       write_file sidebar_path (BmpFile sidebar_image) w,
       sidebar_draws ++ [CallSave sidebar_path None] ++ header_draws)
  else (inl (OSError sidebar_path), w, sidebar_draws).
Proof.
  unfold create_installer_assets. script_start.
  destruct (can_write w sidebar_path); [|reflexivity].
  do 6 script_step.
  destruct (can_write w header_path); reflexivity.
Qed.

End runs.

(** ** The output paths *)

Lemma outputs_NoDup : NoDup outputs.
Proof. apply (bool_decide_unpack _). vm_compute. reflexivity. Qed.

Lemma ico_png_distinct : generate_icon.ico_path ≠ generate_icon.png_path.
Proof. apply (bool_decide_unpack _). vm_compute. reflexivity. Qed.

Lemma sidebar_header_distinct :
  generate_installer_assets.sidebar_path ≠
  generate_installer_assets.header_path.
Proof. apply (bool_decide_unpack _). vm_compute. reflexivity. Qed.

Lemma writable_blank_world paths : writable blank_world paths.
Proof. apply Forall_forall. reflexivity. Qed.

Lemma writable_inv w p q :
  writable w [p; q] → can_write w p = true ∧ can_write w q = true.
Proof.
  intros Hw. split.
  - apply (Forall_inv Hw).
  - apply (Forall_inv (Forall_inv_tail Hw)).
Qed.

(** Writing the same two files again changes nothing. *)
Lemma write_twice {V} (m : gmap string V) p q (x y : V) :
  <[q := y]> (<[p := x]> (<[q := y]> (<[p := x]> m))) =
  <[q := y]> (<[p := x]> m).
Proof.
  apply map_eq. intros k.
  destruct (decide (q = k)) as [->|Hq].
  - by rewrite !lookup_insert_eq.
  - rewrite (lookup_insert_ne _ q k) by done.
    rewrite (lookup_insert_ne (<[p:=x]> m) q k) by done.
    destruct (decide (p = k)) as [->|Hp].
    + by rewrite !lookup_insert_eq.
    + rewrite (lookup_insert_ne _ p k) by done.
      rewrite (lookup_insert_ne _ q k) by done.
      done.
Qed.

(** ** The calls of every run

    Whatever the world allows, the calls of a run are an initial part of
    the same sequence; these lemmas let a statement about the calls of all
    runs be checked on the three ways a run can end. *)

(** Membership in a list written out in full. *)
Ltac in_list := apply list_elem_of_In; simpl; tauto.

Section calls.

Context `{Rasteriser}.

Lemma icon_calls_cases (P : list Call → Prop) (w : World) :
  P icon_draws →
  P (icon_draws ++ [CallSave generate_icon.ico_path
                             (Some generate_icon.icon_sizes)]) →
  P (icon_draws ++ [CallSave generate_icon.ico_path
                             (Some generate_icon.icon_sizes);
                    CallSave generate_icon.png_path None;
                    CallPrint generate_icon.message]) →
  P (calls_of (run generate_icon.create_neuro_icon w)).
Proof.
  intros P0 P1 P2. rewrite run_create_neuro_icon.
  destruct (can_write w generate_icon.ico_path); [|exact P0].
  destruct (can_write w generate_icon.png_path); [exact P2|exact P1].
Qed.

Lemma installer_calls_cases (P : list Call → Prop) (w : World) :
  P sidebar_draws →
  P (sidebar_draws ++
     [CallSave generate_installer_assets.sidebar_path None] ++
     header_draws) →
  P (sidebar_draws ++
     [CallSave generate_installer_assets.sidebar_path None] ++
     header_draws ++
     [CallSave generate_installer_assets.header_path None;
      CallPrint generate_installer_assets.message]) →
  P (calls_of (run generate_installer_assets.create_installer_assets w)).
Proof.
  intros P0 P1 P2. rewrite run_create_installer_assets.
  destruct (can_write w generate_installer_assets.sidebar_path);
    [|exact P0].
  destruct (can_write w generate_installer_assets.header_path);
    [exact P2|exact P1].
Qed.

End calls.

(** ** The glyph polygons *)

(** C2, as the claim has it, fails: the polygon the icon script draws is
    given as a list of eleven pairs, not ten. *)
Lemma icon_polygon_not_ten_pairs :
  ¬ Forall (λ p : Z * Z * list (Z * Z), length p.2 = 10%nat)
      (polygons_drawn
         (calls_of (run (generate_icon.create_neuro_icon
                           (H := plain_rasteriser)) blank_world))).
Proof.
  rewrite run_create_neuro_icon. simpl.
  intros Hten. apply Forall_inv in Hten. simpl in Hten. discriminate.
Qed.

(** C2, amended: in every run, each polygon the installer script draws
    (sidebar and header) is a list of exactly 10 integer pairs; the icon
    script draws one polygon, a list of 11 pairs, whose first 10 are
    pairwise distinct and whose last repeats the first. *)
Theorem glyph_polygon_vertex_counts `{Rasteriser} (w : World) :
  Forall (λ p : Z * Z * list (Z * Z), length p.2 = 10%nat)
    (polygons_drawn
       (calls_of (run generate_installer_assets.create_installer_assets w)))
  ∧ polygons_drawn (calls_of (run generate_icon.create_neuro_icon w)) =
    [((512, 512), generate_icon.path_coords)]
  ∧ length generate_icon.path_coords = 11%nat
  ∧ NoDup (take 10 generate_icon.path_coords)
  ∧ last generate_icon.path_coords = head generate_icon.path_coords
  ∧ length generate_installer_assets.path_coords = 10%nat
  ∧ length generate_installer_assets.n_small = 10%nat.
Proof.
  split; [|split; [|split; [|split]]].
  - apply (installer_calls_cases
             (λ cs, Forall (λ p : Z * Z * list (Z * Z), length p.2 = 10%nat)
                      (polygons_drawn cs)));
      simpl; repeat constructor.
  - apply (icon_calls_cases
             (λ cs, polygons_drawn cs =
                    [((512, 512), generate_icon.path_coords)]));
      reflexivity.
  - reflexivity.
  - apply (bool_decide_unpack _). vm_compute. reflexivity.
  - repeat split.
Qed.

(** C10: every vertex of every polygon drawn lies inside the canvas it is
    drawn on: 0 ≤ x < 512 and 0 ≤ y < 512 for the icon, 0 ≤ x < 164 and
    0 ≤ y < 314 for the sidebar, 0 ≤ x < 150 and 0 ≤ y < 57 for the
    header. *)
Theorem glyph_vertices_inside_canvas `{Rasteriser} (w : World) :
  Forall vertices_inside
    (polygons_drawn (calls_of (run generate_icon.create_neuro_icon w)))
  ∧ Forall vertices_inside
      (polygons_drawn
         (calls_of (run generate_installer_assets.create_installer_assets w)))
  ∧ Forall (inside (512, 512)) generate_icon.path_coords
  ∧ Forall (inside (164, 314)) generate_installer_assets.path_coords
  ∧ Forall (inside (150, 57)) generate_installer_assets.n_small.
Proof.
  assert (Hicon : Forall (inside (512, 512)) generate_icon.path_coords)
    by (repeat constructor; simpl; lia).
  assert (Hside : Forall (inside (164, 314))
                    generate_installer_assets.path_coords)
    by (repeat constructor; simpl; lia).
  assert (Hhead : Forall (inside (150, 57)) generate_installer_assets.n_small)
    by (repeat constructor; simpl; lia).
  split; [|split; [|done]].
  - apply (icon_calls_cases (λ cs, Forall vertices_inside (polygons_drawn cs)));
      simpl; repeat (apply Forall_cons; split; [exact Hicon|]);
      apply Forall_nil_2.
  - apply (installer_calls_cases
             (λ cs, Forall vertices_inside (polygons_drawn cs)));
      simpl;
      repeat (apply Forall_cons; split; [first [exact Hside|exact Hhead]|]);
      apply Forall_nil_2.
Qed.

(** ** Colours *)

(** C5: in every run of either script, each canvas is created white, each
    glyph polygon is filled near-black (24,24,27), with alpha 255 where
    the canvas has an alpha channel, and no draw call has a fill other than
    these two colours.  The icon's polygon and the sidebar's are drawn in
    every run, so the statement is about calls that happen. *)
Theorem fill_colours_constant `{Rasteriser} (w : World) :
  Forall colours_ok (calls_of (run generate_icon.create_neuro_icon w))
  ∧ Forall colours_ok
      (calls_of (run generate_installer_assets.create_installer_assets w))
  ∧ CallPolygon RGBA (512, 512) generate_icon.path_coords (near_black RGBA)
    ∈ calls_of (run generate_icon.create_neuro_icon w)
  ∧ CallPolygon RGB (164, 314) generate_installer_assets.path_coords
                (near_black RGB)
    ∈ calls_of (run generate_installer_assets.create_installer_assets w).
Proof.
  split; [|split; [|split]].
  - apply (icon_calls_cases (Forall colours_ok));
      repeat (apply Forall_cons; split; [simpl; auto|]); apply Forall_nil_2.
  - apply (installer_calls_cases (Forall colours_ok));
      repeat (apply Forall_cons; split; [simpl; auto|]); apply Forall_nil_2.
  - apply (icon_calls_cases
             (λ cs, CallPolygon RGBA (512, 512) generate_icon.path_coords
                                (near_black RGBA) ∈ cs));
      simpl; set_solver.
  - apply (installer_calls_cases
             (λ cs, CallPolygon RGB (164, 314)
                      generate_installer_assets.path_coords (near_black RGB)
                    ∈ cs));
      simpl; set_solver.
Qed.

(** ** Files written *)

Lemma icon_frames_kept `{Rasteriser} :
  ico_frames icon_image (Some generate_icon.icon_sizes) =
  [(16, 16); (32, 32); (48, 48); (64, 64); (128, 128); (256, 256)].
Proof.
  unfold ico_frames.
  change (im_size icon_image) with (512, 512).
  reflexivity.
Qed.

(** The list the icon script passes is already sorted and free of
    duplicates: a writer that keeps the sizes in the order given ends with
    the same six. *)
Lemma icon_sizes_sorted_set :
  sorted_set generate_icon.icon_sizes = generate_icon.icon_sizes.
Proof. reflexivity. Qed.

(** What the icon script asks of the encoder: seven square sizes. *)
Lemma icon_sizes_requested :
  generate_icon.icon_sizes =
  (λ n, (n, n)) <$> [16; 32; 48; 64; 128; 256; 512].
Proof. reflexivity. Qed.

(** C1: the code departs from the claim.  The script asks for seven sizes,
    512 among them, but the icon container it writes holds six images, of
    sizes 16, 32, 48, 64, 128 and 256, all taken from the one 512×512
    canvas: the encoder skips every size above 256. *)
Theorem ico_container_holds_six_sizes `{Rasteriser} (w : World) :
  can_write w generate_icon.ico_path = true →
  fs (world_after (run generate_icon.create_neuro_icon w))
    !! generate_icon.ico_path =
  Some (IcoFile icon_image
          [(16, 16); (32, 32); (48, 48); (64, 64); (128, 128); (256, 256)])
  ∧ im_size icon_image = (512, 512)
  ∧ CallSave generate_icon.ico_path (Some generate_icon.icon_sizes)
    ∈ calls_of (run generate_icon.create_neuro_icon w)
  ∧ length generate_icon.icon_sizes = 7%nat
  ∧ (512, 512) ∈ generate_icon.icon_sizes.
Proof.
  intros Hico. rewrite run_create_neuro_icon, Hico, icon_frames_kept.
  split; [|split; [reflexivity|split; [|split; [reflexivity|]]]].
  - destruct (can_write w generate_icon.png_path); simpl.
    + rewrite lookup_insert_ne by (apply not_eq_sym, ico_png_distinct).
      apply lookup_insert_eq.
    + apply lookup_insert_eq.
  - destruct (can_write w generate_icon.png_path); simpl.
    + apply list_elem_of_In; simpl; tauto.
    + apply list_elem_of_In; simpl; tauto.
  - apply list_elem_of_In; simpl; tauto.
Qed.

Lemma ico_container_holds_six_sizes_witness :
  can_write blank_world generate_icon.ico_path = true
  ∧ fs (world_after (run (generate_icon.create_neuro_icon
                            (H := plain_rasteriser)) blank_world))
      !! generate_icon.ico_path =
    Some (IcoFile (icon_image (H := plain_rasteriser))
            [(16, 16); (32, 32); (48, 48); (64, 64); (128, 128); (256, 256)]).
Proof.
  split; [reflexivity|].
  exact (proj1 (ico_container_holds_six_sizes (H := plain_rasteriser)
                  blank_world eq_refl)).
Defined.

(** C7: the PNG the icon script writes holds a 512×512 canvas in RGBA
    mode, 512 rows of 512 pixels. *)
Theorem png_output_is_512_square_rgba `{Rasteriser} (w : World) :
  can_write w generate_icon.ico_path = true →
  can_write w generate_icon.png_path = true →
  ∃ im : Image,
    fs (world_after (run generate_icon.create_neuro_icon w))
      !! generate_icon.png_path = Some (PngFile im)
    ∧ im_mode im = RGBA
    ∧ im_size im = (512, 512)
    ∧ length (im_rows im) = 512%nat
    ∧ Forall (λ row, length row = 512%nat) (im_rows im).
Proof.
  intros Hico Hpng. exists icon_image.
  rewrite run_create_neuro_icon, Hico, Hpng.
  split; [apply lookup_insert_eq|].
  split; [reflexivity|]. split; [reflexivity|].
  assert (Hshape : well_shaped icon_image)
    by (do 2 apply paint_well_shaped; apply new_image_well_shaped).
  destruct Hshape as [Hrows Hcols].
  change (im_size icon_image) with (512, 512) in Hrows, Hcols.
  cbn [fst snd] in Hrows, Hcols.
  split.
  - rewrite Hrows. apply (Nat2Z.inj _ 512%nat). rewrite Z2Nat.id; lia.
  - eapply Forall_impl; [exact Hcols|].
    intros row ->. apply (Nat2Z.inj _ 512%nat). rewrite Z2Nat.id; lia.
Qed.

Lemma png_output_is_512_square_rgba_witness :
  can_write blank_world generate_icon.ico_path = true
  ∧ can_write blank_world generate_icon.png_path = true
  ∧ ∃ im : Image,
      fs (world_after (run (generate_icon.create_neuro_icon
                              (H := plain_rasteriser)) blank_world))
        !! generate_icon.png_path = Some (PngFile im)
      ∧ im_mode im = RGBA
      ∧ im_size im = (512, 512)
      ∧ length (im_rows im) = 512%nat
      ∧ Forall (λ row, length row = 512%nat) (im_rows im).
Proof.
  split; [reflexivity|]. split; [reflexivity|].
  exact (png_output_is_512_square_rgba (H := plain_rasteriser) blank_world
           eq_refl eq_refl).
Defined.

(** ** Successful runs *)

Section successful_runs.

Context `{Rasteriser}.

Lemma icon_run_ok (w : World) :
  can_write w generate_icon.ico_path = true →
  can_write w generate_icon.png_path = true →
  run generate_icon.create_neuro_icon w =
  (inr (),
   emit generate_icon.message
     (write_file generate_icon.png_path (PngFile icon_image)
        (write_file generate_icon.ico_path
           (IcoFile icon_image
              (ico_frames icon_image (Some generate_icon.icon_sizes))) w)),
   icon_draws ++ [CallSave generate_icon.ico_path
                           (Some generate_icon.icon_sizes);
                  CallSave generate_icon.png_path None;
                  CallPrint generate_icon.message]).
Proof. intros Hico Hpng. by rewrite run_create_neuro_icon, Hico, Hpng. Qed.

Lemma installer_run_ok (w : World) :
  can_write w generate_installer_assets.sidebar_path = true →
  can_write w generate_installer_assets.header_path = true →
  run generate_installer_assets.create_installer_assets w =
  (inr (),
   emit generate_installer_assets.message
     (write_file generate_installer_assets.header_path
        (BmpFile header_image)
        (write_file generate_installer_assets.sidebar_path
           (BmpFile sidebar_image) w)),
   sidebar_draws ++
   [CallSave generate_installer_assets.sidebar_path None] ++
   header_draws ++
   [CallSave generate_installer_assets.header_path None;
    CallPrint generate_installer_assets.message]).
Proof.
  intros Hside Hhead.
  by rewrite run_create_installer_assets, Hside, Hhead.
Qed.

Lemma writable_outputs (w : World) :
  writable w outputs →
  can_write w generate_icon.ico_path = true
  ∧ can_write w generate_icon.png_path = true
  ∧ can_write w generate_installer_assets.sidebar_path = true
  ∧ can_write w generate_installer_assets.header_path = true.
Proof.
  intros Hw.
  pose proof (Forall_inv Hw) as H1.
  pose proof (Forall_inv (Forall_inv_tail Hw)) as H2.
  pose proof (Forall_inv (Forall_inv_tail (Forall_inv_tail Hw))) as H3.
  pose proof (Forall_inv (Forall_inv_tail
                (Forall_inv_tail (Forall_inv_tail Hw)))) as H4.
  auto.
Qed.

End successful_runs.

(** ** The rounded rectangle *)

Lemma icon_background_unchanged `{Rasteriser} : icon_background = icon_blank.
Proof. apply paint_uniform. Qed.

(** C4: on the fresh white 512×512 canvas the rounded rectangle changes no
    pixel, the canvas after the draw is the canvas before it, and the
    script has the same outcome and leaves the same files and output as the
    script without that statement. *)
Theorem rounded_rectangle_changes_nothing `{Rasteriser} (w : World) :
  icon_background = icon_blank
  ∧ (∀ x y, pixel_at icon_background x y = pixel_at icon_blank x y)
  ∧ outcome (run generate_icon.create_neuro_icon w) =
    outcome (run create_neuro_icon_without_background w)
  ∧ world_after (run generate_icon.create_neuro_icon w) =
    world_after (run create_neuro_icon_without_background w).
Proof.
  split; [apply icon_background_unchanged|].
  split; [intros x y; by rewrite icon_background_unchanged|].
  rewrite run_create_neuro_icon, run_create_neuro_icon_without_background.
  cbv zeta. unfold icon_image. rewrite icon_background_unchanged.
  destruct (can_write w generate_icon.ico_path);
    [destruct (can_write w generate_icon.png_path)|];
    split; reflexivity.
Qed.

(** ** The sidebar's bottom border *)

Lemma border_mask_rows (x y : Z) :
  0 ≤ x < 164 → 0 ≤ y < 314 →
  rectangle_mask sidebar_border_box x y = (309 <=? y).
Proof.
  intros Hx Hy. unfold rectangle_mask, sidebar_border_box.
  change (generate_installer_assets.sidebar_h - 5) with 309.
  change generate_installer_assets.sidebar_w with 164.
  change generate_installer_assets.sidebar_h with 314.
  replace (0 <=? x) with true by (symmetry; apply Z.leb_le; lia).
  replace (x <=? 164) with true by (symmetry; apply Z.leb_le; lia).
  replace (y <=? 314) with true by (symmetry; apply Z.leb_le; lia).
  by rewrite andb_true_r.
Qed.

Lemma border_rows_covered :
  rows_covered (rectangle_mask sidebar_border_box) (164, 314) =
  [309; 310; 311; 312; 313].
Proof. vm_compute. reflexivity. Qed.

Lemma pixel_at_sidebar_border (x y : Z) :
  0 ≤ x < 164 → 0 ≤ y < 314 →
  pixel_at sidebar_border x y =
  Some (if 309 <=? y then rgb 24 24 27 else rgb 255 255 255).
Proof.
  intros Hx Hy. unfold sidebar_border, sidebar_blank.
  rewrite pixel_at_paint.
  rewrite (pixel_at_new_image RGB 164 314) by assumption.
  rewrite border_mask_rows by assumption.
  cbn [fmap option_fmap option_map].
  by destruct (309 <=? y).
Qed.

(** C3: the sidebar bitmap is a 164×314 RGB canvas whose bottom border is
    a solid band of (24,24,27): the rectangle covers exactly the rows 309
    to 313 of the canvas, five rows, the bottommost ones, over all 164
    columns; every pixel of those rows is (24,24,27) in the written bitmap,
    and the rectangle leaves every row above them white. *)
Theorem sidebar_bottom_band `{Rasteriser} (w : World) :
  can_write w generate_installer_assets.sidebar_path = true →
  fs (world_after (run generate_installer_assets.create_installer_assets w))
    !! generate_installer_assets.sidebar_path = Some (BmpFile sidebar_image)
  ∧ im_mode sidebar_image = RGB
  ∧ im_size sidebar_image = (164, 314)
  ∧ rows_covered (rectangle_mask sidebar_border_box) (164, 314) =
    [309; 310; 311; 312; 313]
  ∧ (∀ x y, 0 ≤ x < 164 → 0 ≤ y < 314 →
       rectangle_mask sidebar_border_box x y = true ↔ 314 - 5 ≤ y)
  ∧ (∀ x y, 0 ≤ x < 164 → 314 - 5 ≤ y < 314 →
       pixel_at sidebar_image x y = Some (rgb 24 24 27))
  ∧ (∀ x y, 0 ≤ x < 164 → 0 ≤ y < 314 - 5 →
       pixel_at sidebar_border x y = Some (rgb 255 255 255)).
Proof.
  intros Hside.
  split; [|split; [reflexivity|split; [reflexivity|split;
    [apply border_rows_covered|split; [|split]]]]].
  - rewrite run_create_installer_assets, Hside.
    destruct (can_write w generate_installer_assets.header_path);
      unfold world_after; cbn [fst snd fs emit write_file].
    + rewrite lookup_insert_ne
        by (apply not_eq_sym, sidebar_header_distinct).
      apply lookup_insert_eq.
    + apply lookup_insert_eq.
  - intros x y Hx Hy. rewrite border_mask_rows by assumption.
    rewrite Z.leb_le. lia.
  - intros x y Hx Hy. unfold sidebar_image.
    rewrite pixel_at_paint, pixel_at_sidebar_border by lia.
    replace (309 <=? y) with true by (symmetry; apply Z.leb_le; lia).
    cbn [fmap option_fmap option_map].
    by destruct (polygon_mask _ _ _).
  - intros x y Hx Hy. rewrite pixel_at_sidebar_border by lia.
    by replace (309 <=? y) with false by (symmetry; apply Z.leb_gt; lia).
Qed.

Lemma sidebar_bottom_band_witness :
  can_write blank_world generate_installer_assets.sidebar_path = true
  ∧ fs (world_after
          (run (generate_installer_assets.create_installer_assets
                  (H := plain_rasteriser)) blank_world))
      !! generate_installer_assets.sidebar_path =
    Some (BmpFile (sidebar_image (H := plain_rasteriser)))
  ∧ pixel_at (sidebar_image (H := plain_rasteriser)) 0 309 =
    Some (rgb 24 24 27)
  ∧ pixel_at (sidebar_image (H := plain_rasteriser)) 163 313 =
    Some (rgb 24 24 27)
  ∧ pixel_at sidebar_border 163 308 =
    Some (rgb 255 255 255).
Proof.
  pose proof (sidebar_bottom_band (H := plain_rasteriser) blank_world
                eq_refl) as (Hfile & _ & _ & _ & _ & Hband & Habove).
  split; [reflexivity|]. split; [exact Hfile|].
  split; [apply Hband; lia|]. split; [apply Hband; lia|].
  apply Habove; lia.
Defined.

(** ** Running a script again *)

(** C6: a script's output does not depend on the world it starts in.  In
    any two worlds that let the outputs be written, a run ends without
    error and writes the same content to each output file; run again on
    the world the first run left, it ends without error again and leaves
    the files as they were. *)
Theorem generators_deterministic `{Rasteriser} (w1 w2 : World) :
  writable w1 outputs → writable w2 outputs →
  let icon := run generate_icon.create_neuro_icon in
  let installer := run generate_installer_assets.create_installer_assets in
  (outcome (icon w1) = inr () ∧ outcome (icon w2) = inr ()
   ∧ Forall (λ p, is_Some (fs (world_after (icon w1)) !! p)
                  ∧ fs (world_after (icon w1)) !! p =
                    fs (world_after (icon w2)) !! p)
            [generate_icon.ico_path; generate_icon.png_path]
   ∧ outcome (icon (world_after (icon w1))) = inr ()
   ∧ fs (world_after (icon (world_after (icon w1)))) =
     fs (world_after (icon w1)))
  ∧ (outcome (installer w1) = inr () ∧ outcome (installer w2) = inr ()
     ∧ Forall (λ p, is_Some (fs (world_after (installer w1)) !! p)
                    ∧ fs (world_after (installer w1)) !! p =
                      fs (world_after (installer w2)) !! p)
              [generate_installer_assets.sidebar_path;
               generate_installer_assets.header_path]
     ∧ outcome (installer (world_after (installer w1))) = inr ()
     ∧ fs (world_after (installer (world_after (installer w1)))) =
       fs (world_after (installer w1))).
Proof.
  intros (Hi1 & Hp1 & Hs1 & Hh1)%writable_outputs
         (Hi2 & Hp2 & Hs2 & Hh2)%writable_outputs.
  cbv zeta. split.
  - rewrite (icon_run_ok w1 Hi1 Hp1), (icon_run_ok w2 Hi2 Hp2).
    unfold world_after, outcome. cbn [fst snd].
    rewrite icon_run_ok by assumption.
    cbn [fst snd fs emit write_file].
    split; [reflexivity|]. split; [reflexivity|].
    split; [|split; [reflexivity|apply write_twice]].
    apply Forall_cons. split.
    + rewrite !(lookup_insert_ne _ generate_icon.png_path)
        by (apply not_eq_sym, ico_png_distinct).
      rewrite !lookup_insert_eq. split; [by eexists|reflexivity].
    + apply Forall_cons. split; [|apply Forall_nil_2].
      rewrite !lookup_insert_eq. split; [by eexists|reflexivity].
  - rewrite (installer_run_ok w1 Hs1 Hh1), (installer_run_ok w2 Hs2 Hh2).
    unfold world_after, outcome. cbn [fst snd].
    rewrite installer_run_ok by assumption.
    cbn [fst snd fs emit write_file].
    split; [reflexivity|]. split; [reflexivity|].
    split; [|split; [reflexivity|apply write_twice]].
    apply Forall_cons. split.
    + rewrite !(lookup_insert_ne _ generate_installer_assets.header_path)
        by (apply not_eq_sym, sidebar_header_distinct).
      rewrite !lookup_insert_eq. split; [by eexists|reflexivity].
    + apply Forall_cons. split; [|apply Forall_nil_2].
      rewrite !lookup_insert_eq. split; [by eexists|reflexivity].
Qed.

(** A world that already holds other content at the icon's two paths. *)
Lemma generators_deterministic_witness :
  let stale :=
    write_file generate_icon.png_path
      (BmpFile (new_image RGB (1, 1) (rgb 0 0 0)))
      (write_file generate_icon.ico_path
         (PngFile (new_image RGB (1, 1) (rgb 0 0 0))) blank_world) in
  writable blank_world outputs ∧ writable stale outputs
  ∧ fs (world_after (run (generate_icon.create_neuro_icon
                            (H := plain_rasteriser)) blank_world))
      !! generate_icon.png_path =
    fs (world_after (run (generate_icon.create_neuro_icon
                            (H := plain_rasteriser)) stale))
      !! generate_icon.png_path.
Proof.
  cbv zeta.
  assert (Hstale : writable
            (write_file generate_icon.png_path
               (BmpFile (new_image RGB (1, 1) (rgb 0 0 0)))
               (write_file generate_icon.ico_path
                  (PngFile (new_image RGB (1, 1) (rgb 0 0 0))) blank_world))
            outputs)
    by (unfold writable, outputs; repeat constructor).
  assert (Hblank : writable blank_world outputs)
    by (unfold writable, outputs; repeat constructor).
  split; [exact Hblank|]. split; [exact Hstale|].
  pose proof (generators_deterministic (H := plain_rasteriser) _ _
                Hblank Hstale) as Hdet.
  cbv zeta in Hdet.
  destruct Hdet as ((_ & _ & Hsame & _) & _).
  apply Forall_inv_tail, Forall_inv in Hsame.
  exact (proj2 Hsame).
Defined.

(** ** Order of the installer script's effects *)

(** C8: in every run of the installer script the effects are an initial
    part of: write the sidebar, write the header, print the message.  A
    run that ends without error has had exactly these three, in this order,
    and has printed one line; a run that fails has written nothing or the
    sidebar only and has printed nothing. *)
Theorem installer_message_after_both_writes `{Rasteriser} (w : World) :
  let r := run generate_installer_assets.create_installer_assets w in
  match outcome r with
  | inr _ =>
      effects (calls_of r) =
      [ Wrote generate_installer_assets.sidebar_path;
        Wrote generate_installer_assets.header_path;
        Printed generate_installer_assets.message ]
      ∧ stdout (world_after r) =
        stdout w ++ [generate_installer_assets.message]
      ∧ can_write w generate_installer_assets.sidebar_path = true
      ∧ can_write w generate_installer_assets.header_path = true
  | inl _ =>
      (effects (calls_of r) = []
       ∨ effects (calls_of r) =
         [Wrote generate_installer_assets.sidebar_path])
      ∧ stdout (world_after r) = stdout w
      ∧ (can_write w generate_installer_assets.sidebar_path = false
         ∨ can_write w generate_installer_assets.header_path = false)
  end.
Proof.
  cbv zeta. rewrite run_create_installer_assets.
  destruct (can_write w generate_installer_assets.sidebar_path);
    [destruct (can_write w generate_installer_assets.header_path)|];
    unfold outcome, world_after, calls_of; cbn [fst snd stdout emit write_file].
  - repeat split.
  - split; [right; reflexivity|]. split; [reflexivity|]. by right.
  - split; [left; reflexivity|]. split; [reflexivity|]. by left.
Qed.

(** On a world that lets both files be written the run does succeed, so
    the first case above is met. *)
Lemma installer_succeeds_when_writable `{Rasteriser} (w : World) :
  can_write w generate_installer_assets.sidebar_path = true →
  can_write w generate_installer_assets.header_path = true →
  outcome (run generate_installer_assets.create_installer_assets w) = inr ().
Proof. intros Hs Hh. by rewrite installer_run_ok. Qed.

(** ** The two scripts write different files *)

(** C9: the four output paths are pairwise distinct; the icon script
    writes to [icon.ico] and [icon.png] only, the installer script to
    [installerSidebar.bmp] and [installerHeader.bmp] only, in every run;
    so no path written by one is written by the other, and each leaves
    the other's files as they were. *)
Theorem generators_write_disjoint_files `{Rasteriser} (w1 w2 : World) :
  let icon := run generate_icon.create_neuro_icon w1 in
  let installer :=
    run generate_installer_assets.create_installer_assets w2 in
  NoDup outputs
  ∧ Forall (λ p, p ∈ [generate_icon.ico_path; generate_icon.png_path])
      (written_paths (calls_of icon))
  ∧ Forall (λ p, p ∈ [generate_installer_assets.sidebar_path;
                      generate_installer_assets.header_path])
      (written_paths (calls_of installer))
  ∧ Forall (λ p, p ∉ written_paths (calls_of installer))
      (written_paths (calls_of icon))
  ∧ Forall (λ p, fs (world_after icon) !! p = fs w1 !! p)
      [generate_installer_assets.sidebar_path;
       generate_installer_assets.header_path]
  ∧ Forall (λ p, fs (world_after installer) !! p = fs w2 !! p)
      [generate_icon.ico_path; generate_icon.png_path].
Proof.
  cbv zeta.
  pose proof outputs_NoDup as Hnodup.
  assert (Hio : ∀ p q : string,
             p ∈ [generate_icon.ico_path; generate_icon.png_path] →
             q ∈ [generate_installer_assets.sidebar_path;
                  generate_installer_assets.header_path] → p ≠ q).
  { intros p q Hp Hq ->. unfold outputs in Hnodup.
    change [generate_icon.ico_path; generate_icon.png_path;
            generate_installer_assets.sidebar_path;
            generate_installer_assets.header_path]
      with ([generate_icon.ico_path; generate_icon.png_path] ++
            [generate_installer_assets.sidebar_path;
             generate_installer_assets.header_path]) in Hnodup.
    apply NoDup_app in Hnodup as (_ & Hdisj & _).
    exact (Hdisj q Hp Hq). }
  assert (Hicon : Forall (λ p, p ∈ [generate_icon.ico_path;
                                    generate_icon.png_path])
                    (written_paths
                       (calls_of (run generate_icon.create_neuro_icon w1)))).
  { apply (icon_calls_cases
             (λ cs, Forall (λ p, p ∈ [generate_icon.ico_path;
                                      generate_icon.png_path])
                      (written_paths cs)));
      simpl; repeat (apply Forall_cons; split; [in_list|]);
      apply Forall_nil_2. }
  assert (Hinst : Forall (λ p, p ∈ [generate_installer_assets.sidebar_path;
                                    generate_installer_assets.header_path])
                    (written_paths
                       (calls_of
                          (run generate_installer_assets.create_installer_assets
                               w2)))).
  { apply (installer_calls_cases
             (λ cs, Forall (λ p, p ∈ [generate_installer_assets.sidebar_path;
                                      generate_installer_assets.header_path])
                      (written_paths cs)));
      simpl; repeat (apply Forall_cons; split; [in_list|]);
      apply Forall_nil_2. }
  split; [exact Hnodup|]. split; [exact Hicon|]. split; [exact Hinst|].
  split; [|split].
  - eapply Forall_impl; [exact Hicon|].
    intros p Hp Hq. rewrite Forall_forall in Hinst.
    exact (Hio p p Hp (Hinst p Hq) eq_refl).
  - apply Forall_forall. intros q Hq.
    assert (Hi : generate_icon.ico_path ≠ q) by (apply Hio; [in_list|exact Hq]).
    assert (Hp : generate_icon.png_path ≠ q) by (apply Hio; [in_list|exact Hq]).
    rewrite run_create_neuro_icon.
    destruct (can_write w1 generate_icon.ico_path);
      [destruct (can_write w1 generate_icon.png_path)|];
      unfold world_after; cbn [fst snd fs emit write_file];
      rewrite ?(lookup_insert_ne _ generate_icon.png_path q) by exact Hp;
      rewrite ?(lookup_insert_ne _ generate_icon.ico_path q) by exact Hi;
      reflexivity.
  - apply Forall_forall. intros p Hp.
    assert (Hs : generate_installer_assets.sidebar_path ≠ p)
      by (apply not_eq_sym, Hio; [exact Hp|in_list]).
    assert (Hh : generate_installer_assets.header_path ≠ p)
      by (apply not_eq_sym, Hio; [exact Hp|in_list]).
    rewrite run_create_installer_assets.
    destruct (can_write w2 generate_installer_assets.sidebar_path);
      [destruct (can_write w2 generate_installer_assets.header_path)|];
      unfold world_after; cbn [fst snd fs emit write_file];
      rewrite ?(lookup_insert_ne _ generate_installer_assets.header_path p)
        by exact Hh;
      rewrite ?(lookup_insert_ne _ generate_installer_assets.sidebar_path p)
        by exact Hs;
      reflexivity.
Qed.

(** ** Further properties of the two scripts *)

Lemma pixel_at_paint_outside (mask : Z → Z → bool) (c : Color) m w h c0 x y :
  ¬ (0 ≤ x < w ∧ 0 ≤ y < h) →
  pixel_at (paint mask c (new_image m (w, h) c0)) x y = None.
Proof.
  intros Hout. rewrite pixel_at_paint.
  by rewrite pixel_at_new_image_outside.
Qed.

Section written_files.

Context `{Rasteriser}.

Lemma icon_files_written (w : World) :
  can_write w generate_icon.ico_path = true →
  can_write w generate_icon.png_path = true →
  fs (world_after (run generate_icon.create_neuro_icon w))
    !! generate_icon.ico_path =
  Some (IcoFile icon_image
          (ico_frames icon_image (Some generate_icon.icon_sizes)))
  ∧ fs (world_after (run generate_icon.create_neuro_icon w))
      !! generate_icon.png_path = Some (PngFile icon_image).
Proof.
  intros Hico Hpng. rewrite icon_run_ok by assumption.
  unfold world_after. cbn [fst snd fs emit write_file]. split.
  - rewrite lookup_insert_ne by (apply not_eq_sym, ico_png_distinct).
    apply lookup_insert_eq.
  - apply lookup_insert_eq.
Qed.

Lemma installer_files_written (w : World) :
  can_write w generate_installer_assets.sidebar_path = true →
  can_write w generate_installer_assets.header_path = true →
  fs (world_after (run generate_installer_assets.create_installer_assets w))
    !! generate_installer_assets.sidebar_path = Some (BmpFile sidebar_image)
  ∧ fs (world_after
          (run generate_installer_assets.create_installer_assets w))
      !! generate_installer_assets.header_path = Some (BmpFile header_image).
Proof.
  intros Hs Hh. rewrite installer_run_ok by assumption.
  unfold world_after. cbn [fst snd fs emit write_file]. split.
  - rewrite lookup_insert_ne by (apply not_eq_sym, sidebar_header_distinct).
    apply lookup_insert_eq.
  - apply lookup_insert_eq.
Qed.

(** The pixels of the three canvases, for every position. *)

Lemma pixel_at_icon_image (x y : Z) :
  pixel_at icon_image x y =
  if bool_decide (0 ≤ x < 512 ∧ 0 ≤ y < 512)
  then Some (two_tone RGBA (polygon_mask generate_icon.path_coords x y))
  else None.
Proof.
  unfold icon_image. rewrite icon_background_unchanged. unfold icon_blank.
  change generate_icon.size with 512.
  destruct (bool_decide_reflect (0 ≤ x < 512 ∧ 0 ≤ y < 512)) as [[Hx Hy]|Hout].
  - rewrite pixel_at_paint, pixel_at_new_image by assumption.
    cbn [fmap option_fmap option_map].
    by destruct (polygon_mask _ _ _).
  - by apply pixel_at_paint_outside.
Qed.

Lemma pixel_at_header_image (x y : Z) :
  pixel_at header_image x y =
  if bool_decide (0 ≤ x < 150 ∧ 0 ≤ y < 57)
  then Some (two_tone RGB (polygon_mask generate_installer_assets.n_small x y))
  else None.
Proof.
  unfold header_image.
  change generate_installer_assets.header_w with 150.
  change generate_installer_assets.header_h with 57.
  destruct (bool_decide_reflect (0 ≤ x < 150 ∧ 0 ≤ y < 57)) as [[Hx Hy]|Hout].
  - rewrite pixel_at_paint, pixel_at_new_image by assumption.
    cbn [fmap option_fmap option_map].
    by destruct (polygon_mask _ _ _).
  - by apply pixel_at_paint_outside.
Qed.

Lemma pixel_at_sidebar_image (x y : Z) :
  pixel_at sidebar_image x y =
  if bool_decide (0 ≤ x < 164 ∧ 0 ≤ y < 314)
  then Some (two_tone RGB
               (polygon_mask generate_installer_assets.path_coords x y
                || (309 <=? y)))
  else None.
Proof.
  unfold sidebar_image.
  destruct (bool_decide_reflect (0 ≤ x < 164 ∧ 0 ≤ y < 314)) as [[Hx Hy]|Hout].
  - rewrite pixel_at_paint, pixel_at_sidebar_border by assumption.
    cbn [fmap option_fmap option_map].
    destruct (polygon_mask _ _ _); [reflexivity|].
    by destruct (309 <=? y).
  - rewrite pixel_at_paint. unfold sidebar_border, sidebar_blank.
    change generate_installer_assets.sidebar_w with 164.
    change generate_installer_assets.sidebar_h with 314.
    by rewrite pixel_at_paint_outside.
Qed.

End written_files.

(** *** What the written images show *)

(** X1: the header bitmap the installer script writes holds a 150×57 RGB
    canvas, 57 rows of 150 pixels, on which a pixel is (24,24,27) where the
    small glyph covers it and white everywhere else; there is no pixel
    outside these bounds. *)
Theorem header_bitmap_content `{Rasteriser} (w : World) :
  can_write w generate_installer_assets.sidebar_path = true →
  can_write w generate_installer_assets.header_path = true →
  ∃ im : Image,
    fs (world_after (run generate_installer_assets.create_installer_assets w))
      !! generate_installer_assets.header_path = Some (BmpFile im)
    ∧ im_mode im = RGB
    ∧ im_size im = (150, 57)
    ∧ length (im_rows im) = 57%nat
    ∧ Forall (λ row, length row = 150%nat) (im_rows im)
    ∧ ∀ x y, pixel_at im x y =
             if bool_decide (0 ≤ x < 150 ∧ 0 ≤ y < 57)
             then Some (if polygon_mask generate_installer_assets.n_small x y
                        then rgb 24 24 27 else rgb 255 255 255)
             else None.
Proof.
  intros Hs Hh. exists header_image.
  split; [apply (installer_files_written w Hs Hh)|].
  split; [reflexivity|]. split; [reflexivity|].
  assert (Hshape : well_shaped header_image)
    by (apply paint_well_shaped, new_image_well_shaped).
  destruct Hshape as [Hrows Hcols].
  change (im_size header_image) with (150, 57) in Hrows, Hcols.
  cbn [fst snd] in Hrows, Hcols.
  split; [|split].
  - rewrite Hrows. apply (Nat2Z.inj _ 57%nat). rewrite Z2Nat.id; lia.
  - eapply Forall_impl; [exact Hcols|].
    intros row ->. apply (Nat2Z.inj _ 150%nat). rewrite Z2Nat.id; lia.
  - intros x y. rewrite pixel_at_header_image.
    destruct (bool_decide _); [|reflexivity].
    by destruct (polygon_mask _ _ _).
Qed.

Lemma header_bitmap_content_witness :
  can_write blank_world generate_installer_assets.sidebar_path = true
  ∧ can_write blank_world generate_installer_assets.header_path = true
  ∧ ∃ im : Image,
      fs (world_after
            (run (generate_installer_assets.create_installer_assets
                    (H := plain_rasteriser)) blank_world))
        !! generate_installer_assets.header_path = Some (BmpFile im)
      ∧ im_mode im = RGB
      ∧ im_size im = (150, 57)
      ∧ length (im_rows im) = 57%nat
      ∧ Forall (λ row, length row = 150%nat) (im_rows im)
      ∧ ∀ x y, pixel_at im x y =
               if bool_decide (0 ≤ x < 150 ∧ 0 ≤ y < 57)
               then Some (if even_odd generate_installer_assets.n_small x y
                          then rgb 24 24 27 else rgb 255 255 255)
               else None.
Proof.
  split; [reflexivity|]. split; [reflexivity|].
  exact (header_bitmap_content (H := plain_rasteriser) blank_world
           eq_refl eq_refl).
Defined.

(** X2: the icon the script writes as PNG is a two-colour, fully opaque
    image: inside the 512×512 canvas a pixel is (24,24,27,255) where the
    glyph polygon covers it and (255,255,255,255) everywhere else, the
    rounded rectangle leaving no trace; outside there is no pixel. *)
Theorem icon_png_pixels `{Rasteriser} (w : World) :
  can_write w generate_icon.ico_path = true →
  can_write w generate_icon.png_path = true →
  ∃ im : Image,
    fs (world_after (run generate_icon.create_neuro_icon w))
      !! generate_icon.png_path = Some (PngFile im)
    ∧ ∀ x y, pixel_at im x y =
             if bool_decide (0 ≤ x < 512 ∧ 0 ≤ y < 512)
             then Some (if polygon_mask generate_icon.path_coords x y
                        then rgba 24 24 27 255 else rgba 255 255 255 255)
             else None.
Proof.
  intros Hico Hpng. exists icon_image.
  split; [apply (icon_files_written w Hico Hpng)|].
  intros x y. rewrite pixel_at_icon_image.
  destruct (bool_decide _); [|reflexivity].
  by destruct (polygon_mask _ _ _).
Qed.

Lemma icon_png_pixels_witness :
  can_write blank_world generate_icon.ico_path = true
  ∧ can_write blank_world generate_icon.png_path = true
  ∧ ∃ im : Image,
      fs (world_after (run (generate_icon.create_neuro_icon
                              (H := plain_rasteriser)) blank_world))
        !! generate_icon.png_path = Some (PngFile im)
      ∧ ∀ x y, pixel_at im x y =
               if bool_decide (0 ≤ x < 512 ∧ 0 ≤ y < 512)
               then Some (if even_odd generate_icon.path_coords x y
                          then rgba 24 24 27 255 else rgba 255 255 255 255)
               else None.
Proof.
  split; [reflexivity|]. split; [reflexivity|].
  exact (icon_png_pixels (H := plain_rasteriser) blank_world eq_refl eq_refl).
Defined.

(** X3: in the sidebar bitmap a pixel of the 164×314 canvas is (24,24,27)
    exactly where the glyph polygon covers it or its row is 309 or below,
    and white everywhere else; outside the canvas there is no pixel. *)
Theorem sidebar_bitmap_pixels `{Rasteriser} (w : World) :
  can_write w generate_installer_assets.sidebar_path = true →
  can_write w generate_installer_assets.header_path = true →
  ∃ im : Image,
    fs (world_after (run generate_installer_assets.create_installer_assets w))
      !! generate_installer_assets.sidebar_path = Some (BmpFile im)
    ∧ ∀ x y, pixel_at im x y =
             if bool_decide (0 ≤ x < 164 ∧ 0 ≤ y < 314)
             then Some (if polygon_mask
                             generate_installer_assets.path_coords x y
                           || (309 <=? y)
                        then rgb 24 24 27 else rgb 255 255 255)
             else None.
Proof.
  intros Hs Hh. exists sidebar_image.
  split; [apply (installer_files_written w Hs Hh)|].
  intros x y. rewrite pixel_at_sidebar_image.
  destruct (bool_decide _); [|reflexivity].
  by destruct (_ || _).
Qed.

Lemma sidebar_bitmap_pixels_witness :
  can_write blank_world generate_installer_assets.sidebar_path = true
  ∧ can_write blank_world generate_installer_assets.header_path = true
  ∧ ∃ im : Image,
      fs (world_after
            (run (generate_installer_assets.create_installer_assets
                    (H := plain_rasteriser)) blank_world))
        !! generate_installer_assets.sidebar_path = Some (BmpFile im)
      ∧ ∀ x y, pixel_at im x y =
               if bool_decide (0 ≤ x < 164 ∧ 0 ≤ y < 314)
               then Some (if even_odd
                               generate_installer_assets.path_coords x y
                             || (309 <=? y)
                          then rgb 24 24 27 else rgb 255 255 255)
               else None.
Proof.
  split; [reflexivity|]. split; [reflexivity|].
  exact (sidebar_bitmap_pixels (H := plain_rasteriser) blank_world
           eq_refl eq_refl).
Defined.

(** X4: the icon container and the PNG come from one and the same canvas:
    nothing is drawn between the two saves, and both read the image the
    drawing handle has been writing to.  No embedded size exceeds the size
    of that canvas, so the encoder only ever scales down. *)
Theorem ico_and_png_share_canvas `{Rasteriser} (w : World) :
  can_write w generate_icon.ico_path = true →
  can_write w generate_icon.png_path = true →
  ∃ (im : Image) (sizes : list (Z * Z)),
    fs (world_after (run generate_icon.create_neuro_icon w))
      !! generate_icon.ico_path = Some (IcoFile im sizes)
    ∧ fs (world_after (run generate_icon.create_neuro_icon w))
        !! generate_icon.png_path = Some (PngFile im)
    ∧ Forall (λ s : Z * Z, s.1 ≤ (im_size im).1 ∧ s.2 ≤ (im_size im).2)
        sizes.
Proof.
  intros Hico Hpng.
  exists icon_image, (ico_frames icon_image (Some generate_icon.icon_sizes)).
  destruct (icon_files_written w Hico Hpng) as [Hi Hp].
  split; [exact Hi|]. split; [exact Hp|].
  rewrite icon_frames_kept. change (im_size icon_image) with (512, 512).
  repeat (apply Forall_cons; split; [cbn [fst snd]; lia|]).
  apply Forall_nil_2.
Qed.

Lemma ico_and_png_share_canvas_witness :
  can_write blank_world generate_icon.ico_path = true
  ∧ can_write blank_world generate_icon.png_path = true
  ∧ ∃ (im : Image) (sizes : list (Z * Z)),
      fs (world_after (run (generate_icon.create_neuro_icon
                              (H := plain_rasteriser)) blank_world))
        !! generate_icon.ico_path = Some (IcoFile im sizes)
      ∧ fs (world_after (run (generate_icon.create_neuro_icon
                                (H := plain_rasteriser)) blank_world))
          !! generate_icon.png_path = Some (PngFile im)
      ∧ Forall (λ s : Z * Z, s.1 ≤ (im_size im).1 ∧ s.2 ≤ (im_size im).2)
          sizes.
Proof.
  split; [reflexivity|]. split; [reflexivity|].
  exact (ico_and_png_share_canvas (H := plain_rasteriser) blank_world
           eq_refl eq_refl).
Defined.

(** *** Order of effects and failures *)

(** X5: in every run of the icon script the outside effects are an initial
    part of: write [icon.ico], write [icon.png], print the message.  A run
    without error has had exactly these three in this order and has added
    one line to the output; a failing run has written nothing or the
    container only, and has printed nothing. *)
Theorem icon_message_after_both_writes `{Rasteriser} (w : World) :
  let r := run generate_icon.create_neuro_icon w in
  match outcome r with
  | inr _ =>
      effects (calls_of r) =
      [ Wrote generate_icon.ico_path; Wrote generate_icon.png_path;
        Printed generate_icon.message ]
      ∧ stdout (world_after r) = stdout w ++ [generate_icon.message]
  | inl _ =>
      (effects (calls_of r) = []
       ∨ effects (calls_of r) = [Wrote generate_icon.ico_path])
      ∧ stdout (world_after r) = stdout w
  end.
Proof.
  cbv zeta. rewrite run_create_neuro_icon.
  destruct (can_write w generate_icon.ico_path);
    [destruct (can_write w generate_icon.png_path)|];
    unfold outcome, world_after, calls_of; cbn [fst snd stdout emit write_file].
  - split; reflexivity.
  - split; [right; reflexivity|reflexivity].
  - split; [left; reflexivity|reflexivity].
Qed.


(** X7: when [icon.ico] cannot be opened the icon script stops there with
    the error of that path: the world is left exactly as it was, and the
    PNG is not attempted, even if it could have been written. *)
Theorem icon_stops_at_first_failed_write `{Rasteriser} (w : World) :
  can_write w generate_icon.ico_path = false →
  outcome (run generate_icon.create_neuro_icon w) =
    inl (OSError generate_icon.ico_path)
  ∧ world_after (run generate_icon.create_neuro_icon w) = w
  ∧ written_paths (calls_of (run generate_icon.create_neuro_icon w)) = [].
Proof.
  intros Hico. rewrite run_create_neuro_icon, Hico.
  repeat split.
Qed.

Lemma icon_stops_at_first_failed_write_witness :
  can_write (only_writable generate_icon.png_path) generate_icon.ico_path
  = false
  ∧ outcome (run (generate_icon.create_neuro_icon (H := plain_rasteriser))
                 (only_writable generate_icon.png_path)) =
    inl (OSError generate_icon.ico_path)
  ∧ world_after (run (generate_icon.create_neuro_icon
                        (H := plain_rasteriser))
                     (only_writable generate_icon.png_path)) =
    only_writable generate_icon.png_path
  ∧ written_paths
      (calls_of (run (generate_icon.create_neuro_icon
                        (H := plain_rasteriser))
                     (only_writable generate_icon.png_path))) = [].
Proof.
  split; [vm_compute; reflexivity|].
  apply (icon_stops_at_first_failed_write (H := plain_rasteriser)
           (only_writable generate_icon.png_path)).
  vm_compute. reflexivity.
Defined.

(** X8: when [icon.ico] has been written and [icon.png] cannot be opened,
    the run ends with the error of the PNG path; the container it wrote
    stays in place, no other file is changed and no message is printed. *)
Theorem icon_keeps_container_when_png_fails `{Rasteriser} (w : World) :
  can_write w generate_icon.ico_path = true →
  can_write w generate_icon.png_path = false →
  outcome (run generate_icon.create_neuro_icon w) =
    inl (OSError generate_icon.png_path)
  ∧ fs (world_after (run generate_icon.create_neuro_icon w)) =
    <[generate_icon.ico_path :=
        IcoFile icon_image
          [(16, 16); (32, 32); (48, 48); (64, 64); (128, 128); (256, 256)]]>
      (fs w)
  ∧ stdout (world_after (run generate_icon.create_neuro_icon w)) = stdout w.
Proof.
  intros Hico Hpng.
  rewrite run_create_neuro_icon, Hico, Hpng, icon_frames_kept.
  repeat split.
Qed.

Lemma icon_keeps_container_when_png_fails_witness :
  can_write (only_writable generate_icon.ico_path) generate_icon.ico_path
  = true
  ∧ can_write (only_writable generate_icon.ico_path) generate_icon.png_path
    = false
  ∧ outcome (run (generate_icon.create_neuro_icon (H := plain_rasteriser))
                 (only_writable generate_icon.ico_path)) =
    inl (OSError generate_icon.png_path).
Proof.
  split; [vm_compute; reflexivity|]. split; [vm_compute; reflexivity|].
  apply (icon_keeps_container_when_png_fails (H := plain_rasteriser)
           (only_writable generate_icon.ico_path));
    vm_compute; reflexivity.
Defined.

(** X9: when the sidebar bitmap cannot be opened the installer script
    stops there: the world is left exactly as it was, and the header canvas
    is never created nor its glyph drawn. *)
Theorem installer_stops_before_header `{Rasteriser} (w : World) :
  can_write w generate_installer_assets.sidebar_path = false →
  outcome (run generate_installer_assets.create_installer_assets w) =
    inl (OSError generate_installer_assets.sidebar_path)
  ∧ world_after (run generate_installer_assets.create_installer_assets w) = w
  ∧ Forall (λ c, c ∉ header_draws)
      (calls_of (run generate_installer_assets.create_installer_assets w))
  ∧ polygons_drawn
      (calls_of (run generate_installer_assets.create_installer_assets w)) =
    [((164, 314), generate_installer_assets.path_coords)].
Proof.
  intros Hs. rewrite run_create_installer_assets, Hs.
  split; [reflexivity|]. split; [reflexivity|]. split; [|reflexivity].
  unfold calls_of. cbn [snd]. unfold sidebar_draws, header_draws.
  repeat (apply Forall_cons; split;
          [intros Hin; apply list_elem_of_In in Hin; simpl in Hin;
           intuition discriminate|]).
  apply Forall_nil_2.
Qed.

Lemma installer_stops_before_header_witness :
  can_write barren_world generate_installer_assets.sidebar_path = false
  ∧ outcome (run (generate_installer_assets.create_installer_assets
                    (H := plain_rasteriser)) barren_world) =
    inl (OSError generate_installer_assets.sidebar_path).
Proof.
  split; [reflexivity|].
  apply (installer_stops_before_header (H := plain_rasteriser) barren_world).
  reflexivity.
Defined.

(** X10: when the sidebar has been written and the header bitmap cannot be
    opened, the run ends with the error of the header path after the header
    glyph was drawn; the sidebar bitmap stays in place, no other file is
    changed and no message is printed. *)
Theorem installer_keeps_sidebar_when_header_fails `{Rasteriser} (w : World) :
  can_write w generate_installer_assets.sidebar_path = true →
  can_write w generate_installer_assets.header_path = false →
  outcome (run generate_installer_assets.create_installer_assets w) =
    inl (OSError generate_installer_assets.header_path)
  ∧ fs (world_after
          (run generate_installer_assets.create_installer_assets w)) =
    <[generate_installer_assets.sidebar_path := BmpFile sidebar_image]> (fs w)
  ∧ stdout (world_after
              (run generate_installer_assets.create_installer_assets w)) =
    stdout w
  ∧ polygons_drawn
      (calls_of (run generate_installer_assets.create_installer_assets w)) =
    [((164, 314), generate_installer_assets.path_coords);
     ((150, 57), generate_installer_assets.n_small)].
Proof.
  intros Hs Hh. rewrite run_create_installer_assets, Hs, Hh.
  repeat split.
Qed.

Lemma installer_keeps_sidebar_when_header_fails_witness :
  can_write (only_writable generate_installer_assets.sidebar_path)
            generate_installer_assets.sidebar_path = true
  ∧ can_write (only_writable generate_installer_assets.sidebar_path)
              generate_installer_assets.header_path = false
  ∧ outcome (run (generate_installer_assets.create_installer_assets
                    (H := plain_rasteriser))
                 (only_writable generate_installer_assets.sidebar_path)) =
    inl (OSError generate_installer_assets.header_path).
Proof.
  split; [vm_compute; reflexivity|]. split; [vm_compute; reflexivity|].
  apply (installer_keeps_sidebar_when_header_fails (H := plain_rasteriser)
           (only_writable generate_installer_assets.sidebar_path));
    vm_compute; reflexivity.
Defined.

(** *** What a run leaves alone *)

(** X11: whatever happens in a run, a script changes no file other than
    its own two outputs: every other path holds after the run what it held
    before. *)
Theorem other_files_untouched `{Rasteriser} (w : World) (p : string) :
  (p ≠ generate_icon.ico_path → p ≠ generate_icon.png_path →
   fs (world_after (run generate_icon.create_neuro_icon w)) !! p = fs w !! p)
  ∧ (p ≠ generate_installer_assets.sidebar_path →
     p ≠ generate_installer_assets.header_path →
     fs (world_after
           (run generate_installer_assets.create_installer_assets w)) !! p =
     fs w !! p).
Proof.
  split.
  - intros Hi Hp. rewrite run_create_neuro_icon.
    destruct (can_write w generate_icon.ico_path);
      [destruct (can_write w generate_icon.png_path)|];
      unfold world_after; cbn [fst snd fs emit write_file];
      rewrite ?(lookup_insert_ne _ generate_icon.png_path p)
        by (apply not_eq_sym, Hp);
      rewrite ?(lookup_insert_ne _ generate_icon.ico_path p)
        by (apply not_eq_sym, Hi);
      reflexivity.
  - intros Hs Hh. rewrite run_create_installer_assets.
    destruct (can_write w generate_installer_assets.sidebar_path);
      [destruct (can_write w generate_installer_assets.header_path)|];
      unfold world_after; cbn [fst snd fs emit write_file];
      rewrite ?(lookup_insert_ne _ generate_installer_assets.header_path p)
        by (apply not_eq_sym, Hh);
      rewrite ?(lookup_insert_ne _ generate_installer_assets.sidebar_path p)
        by (apply not_eq_sym, Hs);
      reflexivity.
Qed.

Lemma other_files_untouched_witness :
  let kept := PngFile (new_image RGB (1, 1) (rgb 1 2 3)) in
  let w := write_file "e:/chatit.cloud/2030/NeuroOS/build/notes.txt" kept
                      blank_world in
  "e:/chatit.cloud/2030/NeuroOS/build/notes.txt" ≠ generate_icon.ico_path
  ∧ "e:/chatit.cloud/2030/NeuroOS/build/notes.txt" ≠ generate_icon.png_path
  ∧ fs (world_after (run (generate_icon.create_neuro_icon
                            (H := plain_rasteriser)) w))
      !! "e:/chatit.cloud/2030/NeuroOS/build/notes.txt" =
    fs w !! "e:/chatit.cloud/2030/NeuroOS/build/notes.txt".
Proof.
  cbv zeta.
  assert (Hi : "e:/chatit.cloud/2030/NeuroOS/build/notes.txt"
               ≠ generate_icon.ico_path)
    by (apply (bool_decide_unpack _); vm_compute; reflexivity).
  assert (Hp : "e:/chatit.cloud/2030/NeuroOS/build/notes.txt"
               ≠ generate_icon.png_path)
    by (apply (bool_decide_unpack _); vm_compute; reflexivity).
  split; [exact Hi|]. split; [exact Hp|].
  exact (proj1 (other_files_untouched (H := plain_rasteriser) _ _) Hi Hp).
Defined.

(** *** The two canvases of the installer script *)

Lemma installer_final_heap `{Rasteriser} (w : World) :
  can_write w generate_installer_assets.sidebar_path = true →
  can_write w generate_installer_assets.header_path = true →
  let r1 := fresh (dom (∅ : gmap ref Image)) in
  let r2 := fresh (dom (<[r1 := sidebar_image]> (∅ : gmap ref Image))) in
  final_heap generate_installer_assets.create_installer_assets w =
  <[r2 := header_image]> (<[r1 := sidebar_image]> ∅).
Proof.
  intros Hs Hh. cbv zeta.
  unfold final_heap, generate_installer_assets.create_installer_assets.
  unfold mbind, M_bind, Image_new, ImageDraw_Draw, mret, M_ret,
    rounded_rectangle, rectangle, polygon, draw_fill, save, print.
  do 6 script_step. rewrite Hs. do 6 script_step. rewrite Hh.
  do 2 script_step. cbn [snd heap].
  rewrite !insert_insert_eq.
  reflexivity.
Qed.

(** X12: the header is drawn on a canvas of its own.  When the installer
    script ends, its process holds exactly two images, at different
    references: the sidebar canvas, still as it was when it was saved, and
    the header canvas; rebinding [draw] to the header did not let the
    header's glyph reach the sidebar. *)
Theorem installer_canvases_are_separate `{Rasteriser} (w : World) :
  can_write w generate_installer_assets.sidebar_path = true →
  can_write w generate_installer_assets.header_path = true →
  ∃ sidebar header : ref,
    sidebar ≠ header
    ∧ final_heap generate_installer_assets.create_installer_assets w
        !! sidebar = Some sidebar_image
    ∧ final_heap generate_installer_assets.create_installer_assets w
        !! header = Some header_image
    ∧ dom (final_heap generate_installer_assets.create_installer_assets w) =
      {[sidebar; header]}
    ∧ fs (world_after
            (run generate_installer_assets.create_installer_assets w))
        !! generate_installer_assets.sidebar_path =
      Some (BmpFile sidebar_image).
Proof.
  intros Hs Hh.
  pose proof (installer_final_heap w Hs Hh) as Hheap. cbv zeta in Hheap.
  remember (fresh (dom (∅ : gmap ref Image))) as r1 eqn:E1.
  remember (fresh (dom (<[r1 := sidebar_image]> (∅ : gmap ref Image))))
    as r2 eqn:E2.
  assert (Hne : r1 ≠ r2).
  { intros Heq.
    pose proof (is_fresh (dom (<[r1 := sidebar_image]> (∅ : gmap ref Image))))
      as Hfresh.
    rewrite <- E2, <- Heq in Hfresh. apply Hfresh.
    apply (elem_of_dom_2 _ _ sidebar_image), lookup_insert_eq. }
  exists r1, r2. rewrite Hheap. clear Hheap E1 E2.
  split; [exact Hne|]. split; [|split; [|split]].
  - rewrite lookup_insert_ne by (apply not_eq_sym, Hne).
    apply lookup_insert_eq.
  - apply lookup_insert_eq.
  - rewrite !dom_insert_L, dom_empty_L.
    rewrite union_empty_r_L. apply (comm_L (∪)).
  - apply (installer_files_written w Hs Hh).
Qed.

Lemma installer_canvases_are_separate_witness :
  can_write blank_world generate_installer_assets.sidebar_path = true
  ∧ can_write blank_world generate_installer_assets.header_path = true
  ∧ ∃ sidebar header : ref,
      sidebar ≠ header
      ∧ final_heap (generate_installer_assets.create_installer_assets
                      (H := plain_rasteriser)) blank_world
          !! sidebar = Some (sidebar_image (H := plain_rasteriser))
      ∧ final_heap (generate_installer_assets.create_installer_assets
                      (H := plain_rasteriser)) blank_world
          !! header = Some (header_image (H := plain_rasteriser))
      ∧ dom (final_heap (generate_installer_assets.create_installer_assets
                           (H := plain_rasteriser)) blank_world) =
        {[sidebar; header]}
      ∧ fs (world_after
              (run (generate_installer_assets.create_installer_assets
                      (H := plain_rasteriser)) blank_world))
          !! generate_installer_assets.sidebar_path =
        Some (BmpFile (sidebar_image (H := plain_rasteriser))).
Proof.
  split; [reflexivity|]. split; [reflexivity|].
  exact (installer_canvases_are_separate (H := plain_rasteriser) blank_world
           eq_refl eq_refl).
Defined.

(** *** Running both scripts *)

Lemma icon_installer_paths_distinct :
  generate_icon.ico_path ≠ generate_installer_assets.sidebar_path
  ∧ generate_icon.ico_path ≠ generate_installer_assets.header_path
  ∧ generate_icon.png_path ≠ generate_installer_assets.sidebar_path
  ∧ generate_icon.png_path ≠ generate_installer_assets.header_path.
Proof.
  repeat split; apply (bool_decide_unpack _); vm_compute; reflexivity.
Qed.

Lemma insert_pairs_commute {V} (m : gmap string V) a b c d (x y z t : V) :
  a ≠ c → a ≠ d → b ≠ c → b ≠ d →
  <[d := t]> (<[c := z]> (<[b := y]> (<[a := x]> m))) =
  <[b := y]> (<[a := x]> (<[d := t]> (<[c := z]> m))).
Proof.
  intros Hac Had Hbc Hbd.
  rewrite (insert_insert_ne _ c b) by (apply not_eq_sym, Hbc).
  rewrite (insert_insert_ne _ d b) by (apply not_eq_sym, Hbd).
  rewrite (insert_insert_ne _ c a) by (apply not_eq_sym, Hac).
  rewrite (insert_insert_ne _ d a) by (apply not_eq_sym, Had).
  reflexivity.
Qed.

(** X13: the two scripts do not interfere.  On a world where all four
    outputs can be written, running the icon script and then the installer
    script succeeds twice and leaves the same files as running them the
    other way round; only the order of the two printed lines differs. *)
Theorem scripts_commute_on_files `{Rasteriser} (w : World) :
  writable w outputs →
  let icon := run generate_icon.create_neuro_icon in
  let installer := run generate_installer_assets.create_installer_assets in
  outcome (installer (world_after (icon w))) = inr ()
  ∧ outcome (icon (world_after (installer w))) = inr ()
  ∧ fs (world_after (installer (world_after (icon w)))) =
    fs (world_after (icon (world_after (installer w))))
  ∧ stdout (world_after (installer (world_after (icon w)))) =
    stdout w ++ [generate_icon.message; generate_installer_assets.message]
  ∧ stdout (world_after (icon (world_after (installer w)))) =
    stdout w ++ [generate_installer_assets.message; generate_icon.message].
Proof.
  intros (Hi & Hp & Hs & Hh)%writable_outputs. cbv zeta.
  rewrite (icon_run_ok w Hi Hp), (installer_run_ok w Hs Hh).
  unfold world_after, outcome. cbn [fst snd].
  rewrite installer_run_ok by assumption.
  rewrite icon_run_ok by assumption.
  cbn [fst snd fs stdout emit write_file].
  destruct icon_installer_paths_distinct as (Hins & Hinh & Hpns & Hpnh).
  split; [reflexivity|]. split; [reflexivity|].
  split; [by apply insert_pairs_commute|].
  by rewrite <- !app_assoc.
Qed.

Lemma scripts_commute_on_files_witness :
  writable blank_world outputs
  ∧ fs (world_after
          (run (generate_installer_assets.create_installer_assets
                  (H := plain_rasteriser))
               (world_after (run (generate_icon.create_neuro_icon
                                    (H := plain_rasteriser)) blank_world)))) =
    fs (world_after
          (run (generate_icon.create_neuro_icon (H := plain_rasteriser))
               (world_after
                  (run (generate_installer_assets.create_installer_assets
                          (H := plain_rasteriser)) blank_world)))).
Proof.
  assert (Hblank : writable blank_world outputs)
    by (unfold writable, outputs; repeat constructor).
  split; [exact Hblank|].
  pose proof (scripts_commute_on_files (H := plain_rasteriser) blank_world
                Hblank) as Hcomm.
  cbv zeta in Hcomm.
  exact (proj1 (proj2 (proj2 Hcomm))).
Defined.
